(** * The room manager of the drawing-and-guessing game server

    A shallow embedding of [server/src/controllers/roomController.ts] (class
    [RoomManager]) together with the socket handlers of [server/src/socket.ts]
    that drive it, and the properties of the game session that follow from
    the code.

    Conventions of the embedding.
    - A JavaScript object that is shared by reference (a room, which the map
      [rooms] and the closures of the timers both hold) lives in a heap
      indexed by locations; the map [rooms] holds locations.
    - [setInterval]/[setTimeout] are a table of live callbacks indexed by
      handles; [clearInterval] removes the entry.  A callback runs when
      [fire] is applied to its handle: the event loop of Node runs one
      callback at a time, to completion.
    - [Math.random()], [Date.now()] and [uuidv4()] are inputs of the
      operation that reads them.
    - Numbers are integers ([Z]); strings are read over the ASCII range. *)

From stdpp Require Import gmap strings list fin_maps.
From Stdlib Require Import ZArith Lia Ascii.

Local Open Scope string_scope.
Local Open Scope Z_scope.
Local Open Scope list_scope.

(** ** JavaScript strings *)

Section JsString.

(** [\s] and the characters removed by [trim], on the ASCII range:
    tab, line feed, vertical tab, form feed, carriage return, space. *)
Definition isSpace (c : ascii) : bool :=
  let n := nat_of_ascii c in
  ((9 <=? n)%nat && (n <=? 13)%nat) || (n =? 32)%nat.

Definition upperChar (c : ascii) : ascii :=
  let n := nat_of_ascii c in
  if ((97 <=? n)%nat && (n <=? 122)%nat) then ascii_of_nat (n - 32) else c.

(** [s.toUpperCase()] *)
Fixpoint toUpperCase (s : string) : string :=
  match s with
  | EmptyString => EmptyString
  | String c s' => String (upperChar c) (toUpperCase s')
  end.

Fixpoint trimStart (s : string) : string :=
  match s with
  | EmptyString => EmptyString
  | String c s' => if isSpace c then trimStart s' else s
  end.

Fixpoint trimEnd (s : string) : string :=
  match s with
  | EmptyString => EmptyString
  | String c s' =>
      match trimEnd s' with
      | EmptyString => if isSpace c then EmptyString else String c EmptyString
      | t => String c t
      end
  end.

(** [s.trim()] *)
Definition trim (s : string) : string := trimEnd (trimStart s).

(** [word.replace(/[^\s]/g, '_ ')]: every character that is not white space
    is replaced by the two characters of the replacement string. *)
Fixpoint maskWord (word : string) : string :=
  match word with
  | EmptyString => EmptyString
  | String c s' =>
      if isSpace c then String c (maskWord s')
      else String "_" (String " " (maskWord s'))
  end.

(** [s.slice(0, n)] *)
Definition slice0 (n : nat) (s : string) : string := String.substring 0 n s.

(** A string in a condition: the empty string is falsy. *)
Definition truthy (s : string) : bool := negb (bool_decide (s = "")).

(** Comparison up to letter case, character by character: the reading of
    "equal case-insensitively" that [processGuess] is compared with. *)
Fixpoint eqIgnoreCase (s t : string) : bool :=
  match s, t with
  | EmptyString, EmptyString => true
  | String a s', String b t' =>
      bool_decide (upperChar a = upperChar b) && eqIgnoreCase s' t'
  | _, _ => false
  end.

Fixpoint countNonSpace (s : string) : nat :=
  match s with
  | EmptyString => 0%nat
  | String c s' => ((if isSpace c then 0 else 1) + countNonSpace s')%nat
  end.

End JsString.

(** ** The data of [types/index.ts] *)

Inductive DrawType := DrawStart | DrawMove | DrawClear.

Record DrawData := {
  d_type : DrawType;
  d_x : option Z;
  d_y : option Z;
  d_color : option string;
  d_size : option Z
}.

Module Player.
Record t := mk {
  id : string;
  name : string;
  score : Z;
  isHost : bool;
  avatar : string;
  socketId : string
}.

Definition set_score (v : Z) (p : t) : t :=
  {| id := id p; name := name p; score := v; isHost := isHost p;
     avatar := avatar p; socketId := socketId p |}.

Definition set_isHost (v : bool) (p : t) : t :=
  {| id := id p; name := name p; score := score p; isHost := v;
     avatar := avatar p; socketId := socketId p |}.
End Player.

Inductive Status := Lobby | Playing | Ended.

Inductive Phase := Starting | Selecting | Drawing | Review.

Inductive EndReason := ByTimer | AllGuessed | DrawerLeft.

#[global] Instance Status_eq_dec : EqDecision Status.
Proof. solve_decision. Defined.

#[global] Instance Phase_eq_dec : EqDecision Phase.
Proof. solve_decision. Defined.

(** [ServerRoom] of roomController.ts: the [Room] interface of types/index.ts
    extended with [secretWord], [timer] and [drawnPlayers].  [revealedWord] and
    [roundEndReason] are keys that [createRoom] never writes: [None] is the
    absent key. *)
Module ServerRoom.
Record t := mk {
  id : string;
  players : list Player.t;
  status : Status;
  currentRound : Z;
  totalRounds : Z;
  drawTime : Z;
  currentDrawerId : option string;
  currentWord : option string;
  revealedWord : option (option string);
  wordsToChoose : list string;
  maxPlayers : Z;
  hints : Z;
  roundPhase : option Phase;
  roundEndReason : option EndReason;
  roundStartTime : option Z;
  guessedCorrectly : list string;
  canvasHistory : list DrawData;
  secretWord : option string;
  timer : option nat;
  drawnPlayers : list string
}.

Definition set_players (v : list Player.t) (r : t) : t :=
  {|
    id := id r; players := v; status := status r;
    currentRound := currentRound r; totalRounds := totalRounds r;
    drawTime := drawTime r; currentDrawerId := currentDrawerId r;
    currentWord := currentWord r; revealedWord := revealedWord r;
    wordsToChoose := wordsToChoose r; maxPlayers := maxPlayers r;
    hints := hints r; roundPhase := roundPhase r;
    roundEndReason := roundEndReason r; roundStartTime := roundStartTime r;
    guessedCorrectly := guessedCorrectly r; canvasHistory := canvasHistory r;
    secretWord := secretWord r; timer := timer r;
    drawnPlayers := drawnPlayers r
  |}.

Definition set_status (v : Status) (r : t) : t :=
  {|
    id := id r; players := players r; status := v;
    currentRound := currentRound r; totalRounds := totalRounds r;
    drawTime := drawTime r; currentDrawerId := currentDrawerId r;
    currentWord := currentWord r; revealedWord := revealedWord r;
    wordsToChoose := wordsToChoose r; maxPlayers := maxPlayers r;
    hints := hints r; roundPhase := roundPhase r;
    roundEndReason := roundEndReason r; roundStartTime := roundStartTime r;
    guessedCorrectly := guessedCorrectly r; canvasHistory := canvasHistory r;
    secretWord := secretWord r; timer := timer r;
    drawnPlayers := drawnPlayers r
  |}.

Definition set_currentRound (v : Z) (r : t) : t :=
  {|
    id := id r; players := players r; status := status r; currentRound := v;
    totalRounds := totalRounds r; drawTime := drawTime r;
    currentDrawerId := currentDrawerId r; currentWord := currentWord r;
    revealedWord := revealedWord r; wordsToChoose := wordsToChoose r;
    maxPlayers := maxPlayers r; hints := hints r; roundPhase := roundPhase r;
    roundEndReason := roundEndReason r; roundStartTime := roundStartTime r;
    guessedCorrectly := guessedCorrectly r; canvasHistory := canvasHistory r;
    secretWord := secretWord r; timer := timer r;
    drawnPlayers := drawnPlayers r
  |}.

Definition set_currentDrawerId (v : option string) (r : t) : t :=
  {|
    id := id r; players := players r; status := status r;
    currentRound := currentRound r; totalRounds := totalRounds r;
    drawTime := drawTime r; currentDrawerId := v;
    currentWord := currentWord r; revealedWord := revealedWord r;
    wordsToChoose := wordsToChoose r; maxPlayers := maxPlayers r;
    hints := hints r; roundPhase := roundPhase r;
    roundEndReason := roundEndReason r; roundStartTime := roundStartTime r;
    guessedCorrectly := guessedCorrectly r; canvasHistory := canvasHistory r;
    secretWord := secretWord r; timer := timer r;
    drawnPlayers := drawnPlayers r
  |}.

Definition set_currentWord (v : option string) (r : t) : t :=
  {|
    id := id r; players := players r; status := status r;
    currentRound := currentRound r; totalRounds := totalRounds r;
    drawTime := drawTime r; currentDrawerId := currentDrawerId r;
    currentWord := v; revealedWord := revealedWord r;
    wordsToChoose := wordsToChoose r; maxPlayers := maxPlayers r;
    hints := hints r; roundPhase := roundPhase r;
    roundEndReason := roundEndReason r; roundStartTime := roundStartTime r;
    guessedCorrectly := guessedCorrectly r; canvasHistory := canvasHistory r;
    secretWord := secretWord r; timer := timer r;
    drawnPlayers := drawnPlayers r
  |}.

Definition set_wordsToChoose (v : list string) (r : t) : t :=
  {|
    id := id r; players := players r; status := status r;
    currentRound := currentRound r; totalRounds := totalRounds r;
    drawTime := drawTime r; currentDrawerId := currentDrawerId r;
    currentWord := currentWord r; revealedWord := revealedWord r;
    wordsToChoose := v; maxPlayers := maxPlayers r; hints := hints r;
    roundPhase := roundPhase r; roundEndReason := roundEndReason r;
    roundStartTime := roundStartTime r;
    guessedCorrectly := guessedCorrectly r; canvasHistory := canvasHistory r;
    secretWord := secretWord r; timer := timer r;
    drawnPlayers := drawnPlayers r
  |}.

Definition set_roundPhase (v : option Phase) (r : t) : t :=
  {|
    id := id r; players := players r; status := status r;
    currentRound := currentRound r; totalRounds := totalRounds r;
    drawTime := drawTime r; currentDrawerId := currentDrawerId r;
    currentWord := currentWord r; revealedWord := revealedWord r;
    wordsToChoose := wordsToChoose r; maxPlayers := maxPlayers r;
    hints := hints r; roundPhase := v; roundEndReason := roundEndReason r;
    roundStartTime := roundStartTime r;
    guessedCorrectly := guessedCorrectly r; canvasHistory := canvasHistory r;
    secretWord := secretWord r; timer := timer r;
    drawnPlayers := drawnPlayers r
  |}.

Definition set_roundStartTime (v : option Z) (r : t) : t :=
  {|
    id := id r; players := players r; status := status r;
    currentRound := currentRound r; totalRounds := totalRounds r;
    drawTime := drawTime r; currentDrawerId := currentDrawerId r;
    currentWord := currentWord r; revealedWord := revealedWord r;
    wordsToChoose := wordsToChoose r; maxPlayers := maxPlayers r;
    hints := hints r; roundPhase := roundPhase r;
    roundEndReason := roundEndReason r; roundStartTime := v;
    guessedCorrectly := guessedCorrectly r; canvasHistory := canvasHistory r;
    secretWord := secretWord r; timer := timer r;
    drawnPlayers := drawnPlayers r
  |}.

Definition set_guessedCorrectly (v : list string) (r : t) : t :=
  {|
    id := id r; players := players r; status := status r;
    currentRound := currentRound r; totalRounds := totalRounds r;
    drawTime := drawTime r; currentDrawerId := currentDrawerId r;
    currentWord := currentWord r; revealedWord := revealedWord r;
    wordsToChoose := wordsToChoose r; maxPlayers := maxPlayers r;
    hints := hints r; roundPhase := roundPhase r;
    roundEndReason := roundEndReason r; roundStartTime := roundStartTime r;
    guessedCorrectly := v; canvasHistory := canvasHistory r;
    secretWord := secretWord r; timer := timer r;
    drawnPlayers := drawnPlayers r
  |}.

Definition set_canvasHistory (v : list DrawData) (r : t) : t :=
  {|
    id := id r; players := players r; status := status r;
    currentRound := currentRound r; totalRounds := totalRounds r;
    drawTime := drawTime r; currentDrawerId := currentDrawerId r;
    currentWord := currentWord r; revealedWord := revealedWord r;
    wordsToChoose := wordsToChoose r; maxPlayers := maxPlayers r;
    hints := hints r; roundPhase := roundPhase r;
    roundEndReason := roundEndReason r; roundStartTime := roundStartTime r;
    guessedCorrectly := guessedCorrectly r; canvasHistory := v;
    secretWord := secretWord r; timer := timer r;
    drawnPlayers := drawnPlayers r
  |}.

Definition set_secretWord (v : option string) (r : t) : t :=
  {|
    id := id r; players := players r; status := status r;
    currentRound := currentRound r; totalRounds := totalRounds r;
    drawTime := drawTime r; currentDrawerId := currentDrawerId r;
    currentWord := currentWord r; revealedWord := revealedWord r;
    wordsToChoose := wordsToChoose r; maxPlayers := maxPlayers r;
    hints := hints r; roundPhase := roundPhase r;
    roundEndReason := roundEndReason r; roundStartTime := roundStartTime r;
    guessedCorrectly := guessedCorrectly r; canvasHistory := canvasHistory r;
    secretWord := v; timer := timer r; drawnPlayers := drawnPlayers r
  |}.

Definition set_timer (v : option nat) (r : t) : t :=
  {|
    id := id r; players := players r; status := status r;
    currentRound := currentRound r; totalRounds := totalRounds r;
    drawTime := drawTime r; currentDrawerId := currentDrawerId r;
    currentWord := currentWord r; revealedWord := revealedWord r;
    wordsToChoose := wordsToChoose r; maxPlayers := maxPlayers r;
    hints := hints r; roundPhase := roundPhase r;
    roundEndReason := roundEndReason r; roundStartTime := roundStartTime r;
    guessedCorrectly := guessedCorrectly r; canvasHistory := canvasHistory r;
    secretWord := secretWord r; timer := v; drawnPlayers := drawnPlayers r
  |}.

Definition set_drawnPlayers (v : list string) (r : t) : t :=
  {|
    id := id r; players := players r; status := status r;
    currentRound := currentRound r; totalRounds := totalRounds r;
    drawTime := drawTime r; currentDrawerId := currentDrawerId r;
    currentWord := currentWord r; revealedWord := revealedWord r;
    wordsToChoose := wordsToChoose r; maxPlayers := maxPlayers r;
    hints := hints r; roundPhase := roundPhase r;
    roundEndReason := roundEndReason r; roundStartTime := roundStartTime r;
    guessedCorrectly := guessedCorrectly r; canvasHistory := canvasHistory r;
    secretWord := secretWord r; timer := timer r; drawnPlayers := v
  |}.

End ServerRoom.

(** The object sent to clients.  At run time it is the rest of the
    destructuring in [getPublicRoom]: every key of the server room except
    [secretWord] and [timer], so [drawnPlayers] is part of it. *)
Module Room.
Record t := mk {
  id : string;
  players : list Player.t;
  status : Status;
  currentRound : Z;
  totalRounds : Z;
  drawTime : Z;
  currentDrawerId : option string;
  currentWord : option string;
  revealedWord : option (option string);
  wordsToChoose : list string;
  maxPlayers : Z;
  hints : Z;
  roundPhase : option Phase;
  roundEndReason : option EndReason;
  roundStartTime : option Z;
  guessedCorrectly : list string;
  canvasHistory : list DrawData;
  drawnPlayers : list string
}.
End Room.

(** The [settings] argument of [updateSettings]: an object holding any subset
    of the keys of a room; [None] is a key the payload does not name. *)
Module Partial.
Record t := mk {
  id : option (string);
  players : option (list Player.t);
  status : option (Status);
  currentRound : option (Z);
  totalRounds : option (Z);
  drawTime : option (Z);
  currentDrawerId : option (option string);
  currentWord : option (option string);
  revealedWord : option (option (option string));
  wordsToChoose : option (list string);
  maxPlayers : option (Z);
  hints : option (Z);
  roundPhase : option (option Phase);
  roundEndReason : option (option EndReason);
  roundStartTime : option (option Z);
  guessedCorrectly : option (list string);
  canvasHistory : option (list DrawData);
  secretWord : option (option string);
  timer : option (option nat);
  drawnPlayers : option (list string)
}.

Definition empty : t :=
  {|
    id := None; players := None; status := None; currentRound := None;
    totalRounds := None; drawTime := None; currentDrawerId := None;
    currentWord := None; revealedWord := None; wordsToChoose := None;
    maxPlayers := None; hints := None; roundPhase := None;
    roundEndReason := None; roundStartTime := None; guessedCorrectly := None;
    canvasHistory := None; secretWord := None; timer := None;
    drawnPlayers := None
  |}.
End Partial.

(** [const { secretWord, timer, ...publicRoom } = room;
    return { ...publicRoom, wordsToChoose: [] }] *)
Definition getPublicRoom (room : ServerRoom.t) : Room.t :=
  {|
    Room.id := ServerRoom.id room; Room.players := ServerRoom.players room;
    Room.status := ServerRoom.status room;
    Room.currentRound := ServerRoom.currentRound room;
    Room.totalRounds := ServerRoom.totalRounds room;
    Room.drawTime := ServerRoom.drawTime room;
    Room.currentDrawerId := ServerRoom.currentDrawerId room;
    Room.currentWord := ServerRoom.currentWord room;
    Room.revealedWord := ServerRoom.revealedWord room;
    Room.wordsToChoose := []; Room.maxPlayers := ServerRoom.maxPlayers room;
    Room.hints := ServerRoom.hints room;
    Room.roundPhase := ServerRoom.roundPhase room;
    Room.roundEndReason := ServerRoom.roundEndReason room;
    Room.roundStartTime := ServerRoom.roundStartTime room;
    Room.guessedCorrectly := ServerRoom.guessedCorrectly room;
    Room.canvasHistory := ServerRoom.canvasHistory room;
    Room.drawnPlayers := ServerRoom.drawnPlayers room
  |}.

(** [Object.assign(room, settings)]: every key the source object names is
    written to the target, the other keys of the target stay. *)
Definition Object_assign (room : ServerRoom.t) (settings : Partial.t) : ServerRoom.t :=
  {|
    ServerRoom.id := default (ServerRoom.id room) (Partial.id settings);
    ServerRoom.players := default (ServerRoom.players room) (Partial.players settings);
    ServerRoom.status := default (ServerRoom.status room) (Partial.status settings);
    ServerRoom.currentRound := default (ServerRoom.currentRound room) (Partial.currentRound settings);
    ServerRoom.totalRounds := default (ServerRoom.totalRounds room) (Partial.totalRounds settings);
    ServerRoom.drawTime := default (ServerRoom.drawTime room) (Partial.drawTime settings);
    ServerRoom.currentDrawerId := default (ServerRoom.currentDrawerId room) (Partial.currentDrawerId settings);
    ServerRoom.currentWord := default (ServerRoom.currentWord room) (Partial.currentWord settings);
    ServerRoom.revealedWord := default (ServerRoom.revealedWord room) (Partial.revealedWord settings);
    ServerRoom.wordsToChoose := default (ServerRoom.wordsToChoose room) (Partial.wordsToChoose settings);
    ServerRoom.maxPlayers := default (ServerRoom.maxPlayers room) (Partial.maxPlayers settings);
    ServerRoom.hints := default (ServerRoom.hints room) (Partial.hints settings);
    ServerRoom.roundPhase := default (ServerRoom.roundPhase room) (Partial.roundPhase settings);
    ServerRoom.roundEndReason := default (ServerRoom.roundEndReason room) (Partial.roundEndReason settings);
    ServerRoom.roundStartTime := default (ServerRoom.roundStartTime room) (Partial.roundStartTime settings);
    ServerRoom.guessedCorrectly := default (ServerRoom.guessedCorrectly room) (Partial.guessedCorrectly settings);
    ServerRoom.canvasHistory := default (ServerRoom.canvasHistory room) (Partial.canvasHistory settings);
    ServerRoom.secretWord := default (ServerRoom.secretWord room) (Partial.secretWord settings);
    ServerRoom.timer := default (ServerRoom.timer room) (Partial.timer settings);
    ServerRoom.drawnPlayers := default (ServerRoom.drawnPlayers room) (Partial.drawnPlayers settings)
  |}.

(** ** Timers, outbound messages and the state of the server *)

(** The callbacks the code hands to [setInterval] and [setTimeout], with the
    variables their closures capture.  [room] is the location of the room
    object the closure holds; the other callbacks look the room up by id. *)
Inductive Task :=
| StartingTick (roomId : string) (room : nat) (countdown : Z)
| SelectingTick (roomId : string) (timeLeft : Z) (options : list string)
| DrawingTick (roomId : string) (timeLeft : Z)
| ReviewDelay (roomId : string) (room : nat).

Definition delayMs (t : Task) : Z :=
  match t with
  | ReviewDelay _ _ => 5000
  | _ => 1000
  end.

Definition taskRoomId (t : Task) : string :=
  match t with
  | StartingTick roomId _ _ => roomId
  | SelectingTick roomId _ _ => roomId
  | DrawingTick roomId _ => roomId
  | ReviewDelay roomId _ => roomId
  end.

Inductive Reply :=
| ReplyRoom (roomId : string) (room : Room.t)
| ReplyError (error : string).

Inductive Message :=
| TimerUpdate (time : Z)
| RoomUpdated (room : Room.t)
| ChooseWords (words : list string)
| YourTurn (word : string)
| GameStarted
| GameReset
| Chat (user text : string) (system : bool)
| Callback (reply : Reply).

(** [io.to(target).emit(...)]: [target] names a socket.io room, which is a game
    room id or the id of one socket (every socket is alone in the room that
    carries its id). *)
Record Packet := { target : string; message : Message }.

(** [Map<string, ServerRoom>]: keys in insertion order, values are references
    to room objects. *)
Module JsMap.
Definition t := list (string * nat).

Fixpoint get (k : string) (mp : t) : option nat :=
  match mp with
  | [] => None
  | (k', v) :: rest => if bool_decide (k' = k) then Some v else get k rest
  end.

Fixpoint set (k : string) (v : nat) (mp : t) : t :=
  match mp with
  | [] => [(k, v)]
  | (k', v') :: rest =>
      if bool_decide (k' = k) then (k, v) :: rest else (k', v') :: set k v rest
  end.

Definition delete (k : string) (mp : t) : t :=
  filter (λ kv, kv.1 ≠ k) mp.

Definition values (mp : t) : list nat := snd <$> mp.
End JsMap.

Record Manager := mkManager {
  heap : gmap nat ServerRoom.t;
  nextRef : nat;
  rooms : JsMap.t;
  timers : gmap nat Task;
  nextTimer : nat;
  sent : list Packet
}.

Definition init : Manager :=
  {| heap := ∅; nextRef := 0; rooms := []; timers := ∅; nextTimer := 0;
     sent := [] |}.

Definition write (l : nat) (room : ServerRoom.t) (m : Manager) : Manager :=
  {| heap := <[l := room]> (heap m); nextRef := nextRef m; rooms := rooms m;
     timers := timers m; nextTimer := nextTimer m; sent := sent m |}.

Definition alloc (room : ServerRoom.t) (m : Manager) : nat * Manager :=
  (nextRef m,
   {| heap := <[nextRef m := room]> (heap m); nextRef := S (nextRef m);
      rooms := rooms m; timers := timers m; nextTimer := nextTimer m;
      sent := sent m |}).

Definition setRooms (rs : JsMap.t) (m : Manager) : Manager :=
  {| heap := heap m; nextRef := nextRef m; rooms := rs; timers := timers m;
     nextTimer := nextTimer m; sent := sent m |}.

Definition setTimers (ts : gmap nat Task) (m : Manager) : Manager :=
  {| heap := heap m; nextRef := nextRef m; rooms := rooms m; timers := ts;
     nextTimer := nextTimer m; sent := sent m |}.

(** [clearInterval(h)] *)
Definition clearInterval (h : nat) (m : Manager) : Manager :=
  setTimers (delete h (timers m)) m.

(** [setInterval(callback, ms)] and [setTimeout(callback, ms)]: a fresh handle
    that is live from now on. *)
Definition setInterval (t : Task) (m : Manager) : nat * Manager :=
  (nextTimer m,
   {| heap := heap m; nextRef := nextRef m; rooms := rooms m;
      timers := <[nextTimer m := t]> (timers m); nextTimer := S (nextTimer m);
      sent := sent m |}).

Definition setTimeout (t : Task) (m : Manager) : nat * Manager := setInterval t m.

(** [if (room.timer) clearInterval(room.timer)] *)
Definition clearTimer (room : ServerRoom.t) (m : Manager) : Manager :=
  match ServerRoom.timer room with
  | Some h => clearInterval h m
  | None => m
  end.

Definition emit (to : string) (msg : Message) (m : Manager) : Manager :=
  {| heap := heap m; nextRef := nextRef m; rooms := rooms m; timers := timers m;
     nextTimer := nextTimer m;
     sent := sent m ++ [{| target := to; message := msg |}] |}.

(** [this.rooms.get(roomId)]: the reference and the object behind it. *)
Definition getRoom (roomId : string) (m : Manager) : option (nat * ServerRoom.t) :=
  match JsMap.get roomId (rooms m) with
  | Some l =>
      match heap m !! l with
      | Some room => Some (l, room)
      | None => None
      end
  | None => None
  end.

(** ** The callbacks installed by [setupSocket] (socket.ts, lines 7-26) *)

Definition onTick (roomId : string) (time : Z) (m : Manager) : Manager :=
  emit roomId (TimerUpdate time) m.

Definition onRoomUpdate (roomId : string) (room : Room.t) (m : Manager) : Manager :=
  let m1 := emit roomId (RoomUpdated room) m in
  match getRoom roomId m1 with
  | None => m1
  | Some (_, serverRoom) =>
      let m2 :=
        match ServerRoom.roundPhase serverRoom, ServerRoom.currentDrawerId serverRoom with
        | Some Selecting, Some drawer =>
            if (0 <? length (ServerRoom.wordsToChoose serverRoom))%nat && truthy drawer
            then emit drawer (ChooseWords (ServerRoom.wordsToChoose serverRoom)) m1
            else m1
        | _, _ => m1
        end in
      match ServerRoom.roundPhase serverRoom, ServerRoom.secretWord serverRoom,
            ServerRoom.currentDrawerId serverRoom with
      | Some Drawing, Some word, Some drawer =>
          if truthy word && truthy drawer then emit drawer (YourTurn word) m2
          else m2
      | _, _, _ => m2
      end
  end.

(** ** The class [RoomManager] (roomController.ts) *)

Definition WORDS : list string :=
  ["APPLE"; "BANANA"; "CAT"; "DOG"; "ELEPHANT"; "FISH"; "GUITAR"; "HOUSE";
   "ICE CREAM"; "JELLYFISH"; "KITE"; "LION"; "MOON"; "NEST"; "OCTOPUS";
   "PENGUIN"; "QUEEN"; "ROBOT"; "SUN"; "TREE"; "UMBRELLA"; "VIOLIN"; "WHALE";
   "XYLOPHONE"; "YACHT"; "ZEBRA"; "CAR"; "BUS"; "TRAIN"; "AIRPLANE"; "BOAT";
   "BIKE"; "COMPUTER"; "PHONE"; "BOOK"; "PEN"; "PENCIL"].

(** [Math.floor(Math.random() * n)].  [Math.random()] lies in [0, 1), so the
    result is an index below [n] when [n] is positive and 0 when [n] is 0; the
    random draw is supplied as a natural number [roll]. *)
Definition randomIndex (roll n : nat) : nat :=
  match n with
  | O => O
  | S _ => (roll mod n)%nat
  end.

(** The four random draws of one turn advance: the drawer, then three words. *)
Record Rolls := { rollDrawer : nat; rollWord0 : nat; rollWord1 : nat; rollWord2 : nat }.

Definition createRoom (username avatar socketId : string) (drawTime rounds : option Z)
    (uuid : string) (m : Manager) : Manager * Room.t :=
  let roomId := toUpperCase (slice0 6 uuid) in
  let newRoom : ServerRoom.t :=
    {| ServerRoom.id := roomId;
       ServerRoom.players :=
         [{| Player.id := socketId; Player.socketId := socketId;
             Player.name := username; Player.score := 0; Player.isHost := true;
             Player.avatar := avatar |}];
       ServerRoom.status := Lobby;
       ServerRoom.currentRound := 1;
       ServerRoom.totalRounds := default 3 rounds;
       ServerRoom.drawTime := default 60 drawTime;
       ServerRoom.currentDrawerId := None;
       ServerRoom.currentWord := None;
       ServerRoom.revealedWord := None;
       ServerRoom.secretWord := None;
       ServerRoom.wordsToChoose := [];
       ServerRoom.maxPlayers := 8;
       ServerRoom.hints := 2;
       ServerRoom.roundPhase := None;
       ServerRoom.roundEndReason := None;
       ServerRoom.roundStartTime := None;
       ServerRoom.guessedCorrectly := [];
       ServerRoom.canvasHistory := [];
       ServerRoom.timer := None;
       ServerRoom.drawnPlayers := [] |} in
  let '(l, m1) := alloc newRoom m in
  (setRooms (JsMap.set roomId l (rooms m1)) m1, getPublicRoom newRoom).

Inductive JoinResult :=
| Joined (room : Room.t)
| JoinError (error : string).

Definition joinRoom (roomId username avatar socketId : string) (m : Manager)
    : Manager * JoinResult :=
  match getRoom roomId m with
  | None => (m, JoinError "Room not found")
  | Some (l, room) =>
      if Z.of_nat (length (ServerRoom.players room)) >=? ServerRoom.maxPlayers room
      then (m, JoinError "Room is full")
      else
        let newPlayer :=
          {| Player.id := socketId; Player.socketId := socketId;
             Player.name := username; Player.score := 0; Player.isHost := false;
             Player.avatar := avatar |} in
        let room1 := ServerRoom.set_players (ServerRoom.players room ++ [newPlayer]) room in
        (write l room1 m, Joined (getPublicRoom room1))
  end.

Definition endRound (roomId : string) (m : Manager) : Manager :=
  match getRoom roomId m with
  | None => m
  | Some (l, room) =>
      let m1 := clearTimer room m in
      let room1 :=
        ServerRoom.set_roundPhase (Some Review)
          (ServerRoom.set_currentWord (ServerRoom.secretWord room) room) in
      let m2 := write l room1 m1 in
      let m3 := onRoomUpdate roomId (getPublicRoom room1) m2 in
      (setTimeout (ReviewDelay roomId l) m3).2
  end.

Definition leaveRoom (roomId socketId : string) (roll : nat) (m : Manager)
    : Manager * option Room.t :=
  match getRoom roomId m with
  | None => (m, None)
  | Some (l, room) =>
      match list_find (λ p, Player.socketId p = socketId) (ServerRoom.players room) with
      | None => (m, Some (getPublicRoom room))
      | Some (playerIndex, leaver) =>
          let wasHost := Player.isHost leaver in
          let wasDrawer := bool_decide (ServerRoom.currentDrawerId room = Some socketId) in
          let players1 := delete playerIndex (ServerRoom.players room) in
          let room1 := ServerRoom.set_players players1 room in
          if (length players1 =? 0)%nat then
            let m1 := clearTimer room1 (write l room1 m) in
            (setRooms (JsMap.delete roomId (rooms m1)) m1, None)
          else
            let room2 :=
              if wasHost then
                let newHostIndex := randomIndex roll (length players1) in
                ServerRoom.set_players
                  (alter (Player.set_isHost true) newHostIndex players1) room1
              else room1 in
            let m2 := write l room2 m in
            let m3 :=
              if wasDrawer && bool_decide (ServerRoom.status room2 = Playing)
              then endRound roomId m2 else m2 in
            (m3, getPublicRoom <$> heap m3 !! l)
      end
  end.

Definition startGame (roomId : string) (m : Manager) : Manager * option Room.t :=
  match getRoom roomId m with
  | None => (m, None)
  | Some (l, room) =>
      let m1 := clearTimer room m in
      let room1 :=
        ServerRoom.set_roundPhase (Some Starting)
          (ServerRoom.set_drawnPlayers []
             (ServerRoom.set_currentRound 1
                (ServerRoom.set_status Playing room))) in
      let countdown := 3 in
      let m2 := write l room1 m1 in
      let m3 := onRoomUpdate roomId (getPublicRoom room1) m2 in
      let m4 := onTick roomId countdown m3 in
      let '(h, m5) := setInterval (StartingTick roomId l countdown) m4 in
      let room2 := ServerRoom.set_timer (Some h) room1 in
      (write l room2 m5, Some (getPublicRoom room2))
  end.

(** What [startNewRound] returns: [null], nothing, or the drawer and the
    options. *)
Inductive RoundStart :=
| RoundNull
| RoundVoid
| RoundStarted (drawerId : string) (options : list string).

(** [startNewRound] calls itself after its "should not happen" reset; [fuel]
    bounds the depth of these calls, and [None] is the bound being reached. *)
Fixpoint startNewRound_rec (fuel : nat) (roomId : string) (rolls : Rolls) (m : Manager)
    : option (Manager * RoundStart) :=
  match fuel with
  | O => None
  | S fuel' =>
      match getRoom roomId m with
      | None => Some (m, RoundNull)
      | Some (l, room) =>
          let m1 := clearTimer room m in
          let activePlayerIds := Player.id <$> ServerRoom.players room in
          let room1 :=
            ServerRoom.set_drawnPlayers
              (filter (λ id, id ∈ activePlayerIds) (ServerRoom.drawnPlayers room)) room in
          let complete :=
            (length (ServerRoom.players room1) <=? length (ServerRoom.drawnPlayers room1))%nat in
          let room2 :=
            if complete then
              ServerRoom.set_drawnPlayers []
                (ServerRoom.set_currentRound (ServerRoom.currentRound room1 + 1) room1)
            else room1 in
          if complete && (ServerRoom.totalRounds room2 <? ServerRoom.currentRound room2) then
            let room3 :=
              ServerRoom.set_currentDrawerId None
                (ServerRoom.set_roundPhase None (ServerRoom.set_status Ended room2)) in
            let m2 := write l room3 m1 in
            Some (onRoomUpdate roomId (getPublicRoom room3) m2, RoundNull)
          else
            let room3 :=
              ServerRoom.set_secretWord None
                (ServerRoom.set_currentWord None
                   (ServerRoom.set_canvasHistory []
                      (ServerRoom.set_guessedCorrectly [] room2))) in
            let availableDrawers :=
              filter (λ p, Player.id p ∉ ServerRoom.drawnPlayers room3)
                (ServerRoom.players room3) in
            match availableDrawers with
            | [] =>
                let room4 := ServerRoom.set_drawnPlayers [] room3 in
                match startNewRound_rec fuel' roomId rolls (write l room4 m1) with
                | Some (m', _) => Some (m', RoundVoid)
                | None => None
                end
            | first :: _ =>
                let drawerIndex := randomIndex (rollDrawer rolls) (length availableDrawers) in
                let drawer := nth drawerIndex availableDrawers first in
                let word roll := nth (randomIndex roll (length WORDS)) WORDS "" in
                let options :=
                  [word (rollWord0 rolls); word (rollWord1 rolls); word (rollWord2 rolls)] in
                let room4 :=
                  ServerRoom.set_roundPhase (Some Selecting)
                    (ServerRoom.set_wordsToChoose options
                       (ServerRoom.set_drawnPlayers
                          (ServerRoom.drawnPlayers room3 ++ [Player.id drawer])
                          (ServerRoom.set_currentDrawerId (Some (Player.id drawer)) room3))) in
                let m2 := write l room4 m1 in
                let m3 := onRoomUpdate roomId (getPublicRoom room4) m2 in
                let timeLeft := 5 in
                let m4 := onTick roomId timeLeft m3 in
                let '(h, m5) := setInterval (SelectingTick roomId timeLeft options) m4 in
                Some (write l (ServerRoom.set_timer (Some h) room4) m5,
                      RoundStarted (Player.id drawer) options)
            end
      end
  end.

(** A depth that the calls of [startNewRound] on this room cannot exceed: a
    nested call follows either a round increment that stays within
    [totalRounds] or the reset of a non-empty [drawnPlayers]. *)
Definition roundFuel (room : ServerRoom.t) : nat :=
  (2 * Z.to_nat (ServerRoom.totalRounds room - ServerRoom.currentRound room + 1)
   + (if ServerRoom.drawnPlayers room is [] then 0 else 1) + 1)%nat.

Definition startNewRound (roomId : string) (rolls : Rolls) (m : Manager)
    : Manager * RoundStart :=
  let fuel :=
    match getRoom roomId m with
    | Some (_, room) => roundFuel room
    | None => 1%nat
    end in
  default (m, RoundNull) (startNewRound_rec fuel roomId rolls m).

Definition selectWord (roomId word : string) (now : Z) (m : Manager)
    : Manager * option Room.t :=
  match getRoom roomId m with
  | None => (m, None)
  | Some (l, room) =>
      let m1 := clearTimer room m in
      let room1 :=
        ServerRoom.set_roundStartTime (Some now)
          (ServerRoom.set_wordsToChoose []
             (ServerRoom.set_roundPhase (Some Drawing)
                (ServerRoom.set_currentWord (Some (maskWord word))
                   (ServerRoom.set_secretWord (Some word) room)))) in
      let timeLeft := ServerRoom.drawTime room1 in
      let '(h, m2) := setInterval (DrawingTick roomId timeLeft) m1 in
      let room2 := ServerRoom.set_timer (Some h) room1 in
      let m3 := write l room2 m2 in
      let m4 := onRoomUpdate roomId (getPublicRoom room2) m3 in
      (m4, Some (getPublicRoom room2))
  end.

Module GuessResult.
Record t := mk { isCorrect : bool; score : option Z }.
End GuessResult.

(** [const p = players.find(p => p.id === id); if (p) p.score += points] *)
Definition addScore (id : string) (points : Z) (players : list Player.t) : list Player.t :=
  match list_find (λ p, Player.id p = id) players with
  | Some (i, _) => alter (λ p, Player.set_score (Player.score p + points) p) i players
  | None => players
  end.

Definition processGuess (roomId socketId guess : string) (m : Manager)
    : Manager * GuessResult.t :=
  let notCorrect := GuessResult.mk false None in
  match getRoom roomId m with
  | None => (m, notCorrect)
  | Some (l, room) =>
      match ServerRoom.secretWord room with
      | None => (m, notCorrect)
      | Some secretWord =>
          if negb (truthy secretWord)
             || negb (bool_decide (ServerRoom.status room = Playing))
             || negb (bool_decide (ServerRoom.roundPhase room = Some Drawing))
          then (m, notCorrect)
          else if bool_decide (Some socketId = ServerRoom.currentDrawerId room)
          then (m, notCorrect)
          else if bool_decide (toUpperCase (trim guess) = toUpperCase secretWord) then
            if bool_decide (socketId ∈ ServerRoom.guessedCorrectly room)
            then (m, GuessResult.mk true None)
            else
              let points := 50 in
              let players1 := addScore socketId points (ServerRoom.players room) in
              let players2 :=
                match ServerRoom.currentDrawerId room with
                | Some drawerId => addScore drawerId 10 players1
                | None => players1
                end in
              let room1 :=
                ServerRoom.set_guessedCorrectly
                  (ServerRoom.guessedCorrectly room ++ [socketId])
                  (ServerRoom.set_players players2 room) in
              let m1 := write l room1 m in
              let guessers :=
                filter (λ p, Some (Player.id p) ≠ ServerRoom.currentDrawerId room1)
                  (ServerRoom.players room1) in
              let m2 :=
                if (length guessers <=? length (ServerRoom.guessedCorrectly room1))%nat
                then endRound roomId m1 else m1 in
              (m2, GuessResult.mk true (Some points))
          else (m, notCorrect)
      end
  end.

(** [for (const room of this.rooms.values()) if (room.players.find(...)) return room] *)
Fixpoint firstRoomOf (socketId : string) (h : gmap nat ServerRoom.t) (ls : list nat)
    : option (nat * ServerRoom.t) :=
  match ls with
  | [] => None
  | l :: rest =>
      match h !! l with
      | Some room =>
          if bool_decide (Exists (λ p, Player.id p = socketId) (ServerRoom.players room))
          then Some (l, room) else firstRoomOf socketId h rest
      | None => firstRoomOf socketId h rest
      end
  end.

Definition getRoomBySocketId (socketId : string) (m : Manager) : option (nat * ServerRoom.t) :=
  firstRoomOf socketId (heap m) (JsMap.values (rooms m)).

Definition updateSettings (roomId : string) (settings : Partial.t) (m : Manager)
    : Manager * option Room.t :=
  match getRoom roomId m with
  | None => (m, None)
  | Some (l, room) =>
      let room1 := Object_assign room settings in
      (write l room1 m, Some (getPublicRoom room1))
  end.

Definition resetToLobby (roomId : string) (m : Manager) : Manager * option Room.t :=
  match getRoom roomId m with
  | None => (m, None)
  | Some (l, room) =>
      let m1 := clearTimer room m in
      let room1 :=
        ServerRoom.set_players (Player.set_score 0 <$> ServerRoom.players room)
          (ServerRoom.set_wordsToChoose []
             (ServerRoom.set_canvasHistory []
                (ServerRoom.set_guessedCorrectly []
                   (ServerRoom.set_drawnPlayers []
                      (ServerRoom.set_roundPhase None
                         (ServerRoom.set_secretWord None
                            (ServerRoom.set_currentWord None
                               (ServerRoom.set_currentDrawerId None
                                  (ServerRoom.set_currentRound 1
                                     (ServerRoom.set_status Lobby room)))))))))) in
      let m2 := write l room1 m1 in
      let m3 := onRoomUpdate roomId (getPublicRoom room1) m2 in
      (m3, Some (getPublicRoom room1))
  end.

(** ** Timer callbacks *)

(** One run of the callback behind handle [h]; a handle that is not live does
    nothing.  [rolls] and [now] are the random draws and the clock the callback
    reads if it gets that far. *)
Definition fire (h : nat) (rolls : Rolls) (now : Z) (m : Manager) : Manager :=
  match timers m !! h with
  | None => m
  | Some (StartingTick roomId l countdown) =>
      let countdown := countdown - 1 in
      let m1 := setTimers (<[h := StartingTick roomId l countdown]> (timers m)) m in
      let m2 := onTick roomId countdown m1 in
      if countdown <=? 0 then
        let m3 :=
          match heap m2 !! l with
          | Some room => clearTimer room m2
          | None => m2
          end in
        (startNewRound roomId rolls m3).1
      else m2
  | Some (SelectingTick roomId timeLeft options) =>
      let timeLeft := timeLeft - 1 in
      let m1 := setTimers (<[h := SelectingTick roomId timeLeft options]> (timers m)) m in
      let m2 := onTick roomId timeLeft m1 in
      if timeLeft <=? 0 then (selectWord roomId (hd "" options) now m2).1 else m2
  | Some (DrawingTick roomId timeLeft) =>
      let timeLeft := timeLeft - 1 in
      let m1 := setTimers (<[h := DrawingTick roomId timeLeft]> (timers m)) m in
      let m2 := onTick roomId timeLeft m1 in
      if timeLeft <=? 0 then endRound roomId m2 else m2
  | Some (ReviewDelay roomId l) =>
      let m1 := clearInterval h m in
      match heap m1 !! l with
      | Some room =>
          if bool_decide (ServerRoom.status room = Ended) then m1
          else (startNewRound roomId rolls m1).1
      | None => m1
      end
  end.

(** ** The socket handlers (socket.ts, lines 28-150) *)

Definition on_create_room (socket username avatar : string) (drawTime rounds : option Z)
    (uuid : string) (m : Manager) : Manager :=
  let '(m1, room) := createRoom username avatar socket drawTime rounds uuid m in
  emit socket (Callback (ReplyRoom (Room.id room) room)) m1.

Definition on_join_room (socket roomId username avatar : string) (m : Manager) : Manager :=
  match joinRoom roomId username avatar socket m with
  | (m1, JoinError error) => emit socket (Callback (ReplyError error)) m1
  | (m1, Joined result) =>
      emit socket (Callback (ReplyRoom roomId result))
        (emit roomId (RoomUpdated result) m1)
  end.

Definition on_leave_room (socket : string) (roll : nat) (m : Manager) : Manager :=
  match getRoomBySocketId socket m with
  | None => m
  | Some (_, room) =>
      match leaveRoom (ServerRoom.id room) socket roll m with
      | (m1, Some updatedRoom) => emit (ServerRoom.id room) (RoomUpdated updatedRoom) m1
      | (m1, None) => m1
      end
  end.

Definition on_update_settings (socket roomId : string) (settings : Partial.t) (m : Manager)
    : Manager :=
  match getRoom roomId m with
  | None => m
  | Some _ =>
      match updateSettings roomId settings m with
      | (m1, Some updated) => emit (Room.id updated) (RoomUpdated updated) m1
      | (m1, None) => m1
      end
  end.

Definition on_start_game (socket roomId : string) (m : Manager) : Manager :=
  match startGame roomId m with
  | (m1, Some updated) => emit roomId GameStarted (emit roomId (RoomUpdated updated) m1)
  | (m1, None) => m1
  end.

Definition on_reset_to_lobby (socket roomId : string) (m : Manager) : Manager :=
  match resetToLobby roomId m with
  | (m1, Some updated) => emit roomId GameReset (emit roomId (RoomUpdated updated) m1)
  | (m1, None) => m1
  end.

Definition on_select_word (socket roomId word : string) (now : Z) (m : Manager) : Manager :=
  match getRoom roomId m with
  | Some (_, room) =>
      if bool_decide (ServerRoom.currentDrawerId room = Some socket)
         && bool_decide (ServerRoom.roundPhase room = Some Selecting)
      then (selectWord roomId word now m).1 else m
  | None => m
  end.

(** [processGuess] never sets [isClose], so the "you are close" branch of the
    handler is not taken. *)
Definition on_chat (socket roomId message user : string) (m : Manager) : Manager :=
  let '(m1, result) := processGuess roomId socket message m in
  if GuessResult.isCorrect result then
    let m2 := emit roomId (Chat user "guessed the word!" true) m1 in
    match getRoomBySocketId socket m2 with
    | Some (_, room) => emit roomId (RoomUpdated (getPublicRoom room)) m2
    | None => m2
    end
  else emit roomId (Chat user message false) m1.

Definition on_disconnect (socket : string) (roll : nat) (m : Manager) : Manager :=
  on_leave_room socket roll m.

(** What can happen to the server: a client message, with the socket it comes
    from, or a timer callback. *)
Inductive Action :=
| CreateRoom (socket username avatar : string) (drawTime rounds : option Z) (uuid : string)
| JoinRoom (socket roomId username avatar : string)
| LeaveRoom (socket : string) (roll : nat)
| UpdateSettings (socket roomId : string) (settings : Partial.t)
| StartGame (socket roomId : string)
| ResetToLobby (socket roomId : string)
| SelectWord (socket roomId word : string) (now : Z)
| ChatMessage (socket roomId message user : string)
| Disconnect (socket : string) (roll : nat)
| Fire (h : nat) (rolls : Rolls) (now : Z).

Definition exec (a : Action) (m : Manager) : Manager :=
  match a with
  | CreateRoom socket username avatar drawTime rounds uuid =>
      on_create_room socket username avatar drawTime rounds uuid m
  | JoinRoom socket roomId username avatar => on_join_room socket roomId username avatar m
  | LeaveRoom socket roll => on_leave_room socket roll m
  | UpdateSettings socket roomId settings => on_update_settings socket roomId settings m
  | StartGame socket roomId => on_start_game socket roomId m
  | ResetToLobby socket roomId => on_reset_to_lobby socket roomId m
  | SelectWord socket roomId word now => on_select_word socket roomId word now m
  | ChatMessage socket roomId message user => on_chat socket roomId message user m
  | Disconnect socket roll => on_disconnect socket roll m
  | Fire h rolls now => fire h rolls now m
  end.

(** The state after a sequence of actions, the first action first. *)
Definition run (actions : list Action) (m : Manager) : Manager :=
  foldl (λ m a, exec a m) m actions.

Definition reachable (m : Manager) : Prop := ∃ actions, m = run actions init.

(** ** Definitions used in the statements below *)

Definition demoRolls : Rolls :=
  {| rollDrawer := 0; rollWord0 := 2; rollWord1 := 3; rollWord2 := 4 |}.

(** A session used for the concrete checks below: Ann (socket a) creates room
    ABCDEF and Bob (socket b) joins; Ann starts the game and the three ticks of
    the starting countdown pass; Ann, drawn as drawer, selects CAT. *)
Definition lobbyTrace : list Action :=
  [CreateRoom "a" "Ann" "cat.png" None None "abcdef-0000";
   JoinRoom "b" "ABCDEF" "Bob" "dog.png"].

Definition selectingTrace : list Action :=
  lobbyTrace ++
  [StartGame "a" "ABCDEF"; Fire 0 demoRolls 0; Fire 0 demoRolls 0; Fire 0 demoRolls 0].

Definition catTrace : list Action :=
  selectingTrace ++ [SelectWord "a" "ABCDEF" "CAT" 1000].

(** What [Object.assign] does to each key: the value of the payload where the
    payload names the key, the old value where it does not. *)
Definition merged (room : ServerRoom.t) (settings : Partial.t) (room' : ServerRoom.t) : Prop :=
  ServerRoom.id room' = default (ServerRoom.id room) (Partial.id settings) ∧
  ServerRoom.players room' = default (ServerRoom.players room) (Partial.players settings) ∧
  ServerRoom.status room' = default (ServerRoom.status room) (Partial.status settings) ∧
  ServerRoom.currentRound room' = default (ServerRoom.currentRound room) (Partial.currentRound settings) ∧
  ServerRoom.totalRounds room' = default (ServerRoom.totalRounds room) (Partial.totalRounds settings) ∧
  ServerRoom.drawTime room' = default (ServerRoom.drawTime room) (Partial.drawTime settings) ∧
  ServerRoom.currentDrawerId room' = default (ServerRoom.currentDrawerId room) (Partial.currentDrawerId settings) ∧
  ServerRoom.currentWord room' = default (ServerRoom.currentWord room) (Partial.currentWord settings) ∧
  ServerRoom.revealedWord room' = default (ServerRoom.revealedWord room) (Partial.revealedWord settings) ∧
  ServerRoom.wordsToChoose room' = default (ServerRoom.wordsToChoose room) (Partial.wordsToChoose settings) ∧
  ServerRoom.maxPlayers room' = default (ServerRoom.maxPlayers room) (Partial.maxPlayers settings) ∧
  ServerRoom.hints room' = default (ServerRoom.hints room) (Partial.hints settings) ∧
  ServerRoom.roundPhase room' = default (ServerRoom.roundPhase room) (Partial.roundPhase settings) ∧
  ServerRoom.roundEndReason room' = default (ServerRoom.roundEndReason room) (Partial.roundEndReason settings) ∧
  ServerRoom.roundStartTime room' = default (ServerRoom.roundStartTime room) (Partial.roundStartTime settings) ∧
  ServerRoom.guessedCorrectly room' = default (ServerRoom.guessedCorrectly room) (Partial.guessedCorrectly settings) ∧
  ServerRoom.canvasHistory room' = default (ServerRoom.canvasHistory room) (Partial.canvasHistory settings) ∧
  ServerRoom.secretWord room' = default (ServerRoom.secretWord room) (Partial.secretWord settings) ∧
  ServerRoom.timer room' = default (ServerRoom.timer room) (Partial.timer settings) ∧
  ServerRoom.drawnPlayers room' = default (ServerRoom.drawnPlayers room) (Partial.drawnPlayers settings).

(** A settings payload that names keys which are not settings. *)
Definition hostilePayload : Partial.t :=
  {| Partial.id := None; Partial.players := Some []; Partial.status := Some Ended;
     Partial.currentRound := None; Partial.totalRounds := None; Partial.drawTime := None;
     Partial.currentDrawerId := None; Partial.currentWord := None;
     Partial.revealedWord := None; Partial.wordsToChoose := None;
     Partial.maxPlayers := None; Partial.hints := None; Partial.roundPhase := None;
     Partial.roundEndReason := None; Partial.roundStartTime := None;
     Partial.guessedCorrectly := None; Partial.canvasHistory := None;
     Partial.secretWord := Some (Some "DOG"); Partial.timer := None;
     Partial.drawnPlayers := None |}.

(** The room takes guesses: the game is playing, the phase is drawing and a
    secret word is set (the guard at the head of [processGuess]; an empty
    string counts as no word). *)
Definition guessingOpen (room : ServerRoom.t) (secret : string) : Prop :=
  ServerRoom.status room = Playing ∧
  ServerRoom.roundPhase room = Some Drawing ∧
  ServerRoom.secretWord room = Some secret ∧
  secret ≠ "".

(** The score of the player that [players.find(p => p.id === id)] returns. *)
Definition scoreOf (id : string) (players : list Player.t) : option Z :=
  (λ ip, Player.score ip.2) <$> list_find (λ p, Player.id p = id) players.

(** Every player other than the drawer is in [guessed]. *)
Definition coversGuessers (room : ServerRoom.t) (guessed : list string) : Prop :=
  ∀ p, p ∈ ServerRoom.players room →
       Some (Player.id p) ≠ ServerRoom.currentDrawerId room →
       Player.id p ∈ guessed.

(** The players after a first correct guess by [socketId]: 50 points to the
    guesser, then 10 to the drawer. *)
Definition rewarded (socketId : string) (room : ServerRoom.t) : list Player.t :=
  let players1 := addScore socketId 50 (ServerRoom.players room) in
  match ServerRoom.currentDrawerId room with
  | Some drawerId => addScore drawerId 10 players1
  | None => players1
  end.

(** [drawnPlayers] after the cleanup at the head of [startNewRound]: the ids of
    players who left are removed. *)
Definition prunedDrawn (room : ServerRoom.t) : list string :=
  filter (λ id, id ∈ Player.id <$> ServerRoom.players room) (ServerRoom.drawnPlayers room).

(** The test [room.drawnPlayers.length >= room.players.length] of
    [startNewRound], after the cleanup: everybody has drawn. *)
Definition roundComplete (room : ServerRoom.t) : bool :=
  (length (ServerRoom.players room) <=? length (prunedDrawn room))%nat.

(** [drawnPlayers] holds only ids of current players and is not longer than
    the player list. *)
Definition drawnWithinPlayers (room : ServerRoom.t) : Prop :=
  ServerRoom.drawnPlayers room ⊆ (Player.id <$> ServerRoom.players room) ∧
  (length (ServerRoom.drawnPlayers room) ≤ length (ServerRoom.players room))%nat.

(** Bob guesses the word, the review delay passes and Bob is drawn as the next
    drawer; then Ann, who has drawn, leaves. *)
Definition leaverTrace : list Action :=
  catTrace ++
  [ChatMessage "b" "ABCDEF" "cat " "Bob"; Fire 3 demoRolls 0; LeaveRoom "a" 0].

(** Bob guesses the word; during the review Ann sends start_game again. *)
Definition restartTrace : list Action :=
  catTrace ++ [ChatMessage "b" "ABCDEF" "cat " "Bob"; StartGame "a" "ABCDEF"].

(** * Properties *)

(** ** How the building blocks act on the components of the state *)

Lemma getRoom_Some roomId m l room :
  getRoom roomId m = Some (l, room) ↔
  JsMap.get roomId (rooms m) = Some l ∧ heap m !! l = Some room.
Proof.
  unfold getRoom. destruct (JsMap.get roomId (rooms m)) as [l'|].
  - destruct (heap m !! l') as [room'|] eqn:E.
    + split; [intros [= <- <-]; done | intros [[= <-] Hl]; congruence].
    + split; [done | intros [[= <-] Hl]; congruence].
  - split; [done | by intros [? _]].
Qed.

Lemma getRoom_ext roomId m m' :
  rooms m' = rooms m → heap m' = heap m → getRoom roomId m' = getRoom roomId m.
Proof. unfold getRoom. by intros -> ->. Qed.

Lemma getRoom_write_same roomId m l room room' :
  getRoom roomId m = Some (l, room) →
  getRoom roomId (write l room' m) = Some (l, room').
Proof.
  rewrite !getRoom_Some. intros [Hget _]. split; [done|]. cbn. apply lookup_insert_eq.
Qed.

Lemma onRoomUpdate_frame roomId view m :
  heap (onRoomUpdate roomId view m) = heap m ∧
  rooms (onRoomUpdate roomId view m) = rooms m ∧
  timers (onRoomUpdate roomId view m) = timers m ∧
  nextTimer (onRoomUpdate roomId view m) = nextTimer m ∧
  nextRef (onRoomUpdate roomId view m) = nextRef m.
Proof.
  unfold onRoomUpdate.
  destruct (getRoom roomId (emit roomId (RoomUpdated view) m)) as [[_ sr]|]; [|done].
  destruct (ServerRoom.roundPhase sr) as [[]|], (ServerRoom.currentDrawerId sr) as [d|],
    (ServerRoom.secretWord sr) as [w|]; cbn;
    repeat match goal with |- context [if ?b then _ else _] => destruct b end; done.
Qed.

Lemma heap_onRoomUpdate roomId view m : heap (onRoomUpdate roomId view m) = heap m.
Proof. apply onRoomUpdate_frame. Qed.

Lemma rooms_onRoomUpdate roomId view m : rooms (onRoomUpdate roomId view m) = rooms m.
Proof. apply onRoomUpdate_frame. Qed.

Lemma timers_onRoomUpdate roomId view m : timers (onRoomUpdate roomId view m) = timers m.
Proof. apply onRoomUpdate_frame. Qed.

Lemma nextTimer_onRoomUpdate roomId view m :
  nextTimer (onRoomUpdate roomId view m) = nextTimer m.
Proof. apply onRoomUpdate_frame. Qed.

Lemma getRoom_onRoomUpdate roomId' roomId view m :
  getRoom roomId' (onRoomUpdate roomId view m) = getRoom roomId' m.
Proof. apply getRoom_ext; [apply rooms_onRoomUpdate | apply heap_onRoomUpdate]. Qed.

Lemma heap_clearTimer room m : heap (clearTimer room m) = heap m.
Proof. unfold clearTimer. by destruct (ServerRoom.timer room). Qed.

Lemma rooms_clearTimer room m : rooms (clearTimer room m) = rooms m.
Proof. unfold clearTimer. by destruct (ServerRoom.timer room). Qed.

Lemma nextTimer_clearTimer room m : nextTimer (clearTimer room m) = nextTimer m.
Proof. unfold clearTimer. by destruct (ServerRoom.timer room). Qed.

Lemma getRoom_clearTimer roomId room m : getRoom roomId (clearTimer room m) = getRoom roomId m.
Proof. apply getRoom_ext; [apply rooms_clearTimer | apply heap_clearTimer]. Qed.

Lemma timers_clearTimer room m :
  timers (clearTimer room m) =
  match ServerRoom.timer room with Some h => delete h (timers m) | None => timers m end.
Proof. unfold clearTimer. by destruct (ServerRoom.timer room). Qed.

#[global] Arguments randomIndex : simpl never.

Create Rewrite HintDb mgr.
#[global] Hint Rewrite heap_onRoomUpdate rooms_onRoomUpdate timers_onRoomUpdate
  nextTimer_onRoomUpdate getRoom_onRoomUpdate heap_clearTimer rooms_clearTimer
  nextTimer_clearTimer getRoom_clearTimer : mgr.

Ltac mgr_simpl :=
  repeat (progress (cbn [heap rooms timers nextTimer nextRef sent write alloc setRooms
                         setTimers clearInterval setInterval setTimeout emit onTick fst snd]
                    || autorewrite with mgr)).

(** Projections of a room out of a chain of field updates. *)
Ltac room_simpl :=
  cbn [
    ServerRoom.id ServerRoom.players ServerRoom.status
    ServerRoom.currentRound ServerRoom.totalRounds ServerRoom.drawTime
    ServerRoom.currentDrawerId ServerRoom.currentWord
    ServerRoom.revealedWord ServerRoom.wordsToChoose ServerRoom.maxPlayers
    ServerRoom.hints ServerRoom.roundPhase ServerRoom.roundEndReason
    ServerRoom.roundStartTime ServerRoom.guessedCorrectly
    ServerRoom.canvasHistory ServerRoom.secretWord ServerRoom.timer
    ServerRoom.drawnPlayers ServerRoom.set_players ServerRoom.set_status
    ServerRoom.set_currentRound ServerRoom.set_currentDrawerId
    ServerRoom.set_currentWord ServerRoom.set_wordsToChoose
    ServerRoom.set_roundPhase ServerRoom.set_roundStartTime
    ServerRoom.set_guessedCorrectly ServerRoom.set_canvasHistory
    ServerRoom.set_secretWord ServerRoom.set_timer
    ServerRoom.set_drawnPlayers] in *.

(** ** Strings *)

Lemma maskWord_length word :
  String.length (maskWord word) = (String.length word + countNonSpace word)%nat.
Proof.
  induction word as [|c s IH]; [done|]. cbn. destruct (isSpace c); cbn; lia.
Qed.

Lemma maskWord_app s t : maskWord (s +:+ t) = maskWord s +:+ maskWord t.
Proof.
  induction s as [|c s IH]; [done|]. simpl. rewrite IH. by destruct (isSpace c).
Qed.

Lemma eqIgnoreCase_spec s t :
  eqIgnoreCase s t = true ↔ toUpperCase s = toUpperCase t.
Proof.
  revert t. induction s as [|a s IH]; intros [|b t]; cbn; try done.
  rewrite andb_true_iff, bool_decide_eq_true, IH. split.
  - by intros [-> ->].
  - intros [=]. done.
Qed.

(** ** Selecting a word *)

Lemma selectWord_room roomId word now m l room :
  getRoom roomId m = Some (l, room) →
  ∃ room',
    getRoom roomId (selectWord roomId word now m).1 = Some (l, room') ∧
    ServerRoom.secretWord room' = Some word ∧
    ServerRoom.currentWord room' = Some (maskWord word) ∧
    ServerRoom.roundPhase room' = Some Drawing ∧
    ServerRoom.wordsToChoose room' = [] ∧
    ServerRoom.roundStartTime room' = Some now.
Proof.
  intros Hroom. unfold selectWord. rewrite Hroom. cbn.
  eexists. split.
  - rewrite getRoom_onRoomUpdate. apply getRoom_Some. cbn. mgr_simpl.
    split; [by apply getRoom_Some in Hroom as [? _]|]. apply lookup_insert_eq.
  - done.
Qed.

(** ** Masking (C1) *)




(** ** The public view (C6) *)

(** What [onRoomUpdate] sends: the sanitized view to the room, and the word
    options only to the socket that is the drawer of the room. *)
Lemma onRoomUpdate_sent roomId view m :
  ∃ private,
    sent (onRoomUpdate roomId view m) =
      (sent m ++ {| target := roomId; message := RoomUpdated view |} :: private)%list ∧
    ∀ pkt, pkt ∈ private →
      ∃ l room, getRoom roomId m = Some (l, room) ∧
        ServerRoom.currentDrawerId room = Some (target pkt) ∧
        (message pkt = ChooseWords (ServerRoom.wordsToChoose room) ∨
         ∃ word, ServerRoom.secretWord room = Some word ∧ message pkt = YourTurn word).
Proof.
  unfold onRoomUpdate.
  assert (getRoom roomId (emit roomId (RoomUpdated view) m) = getRoom roomId m) as ->
    by (by apply getRoom_ext).
  destruct (getRoom roomId m) as [[l sr]|] eqn:Hroom.
  2: { exists []. cbn. split; [done|]. intros pkt Hin. by apply elem_of_nil in Hin. }
  destruct (ServerRoom.roundPhase sr) as [[]|] eqn:Hphase;
    destruct (ServerRoom.currentDrawerId sr) as [d|] eqn:Hd;
    destruct (ServerRoom.secretWord sr) as [w|] eqn:Hw; cbn;
    repeat match goal with |- context [if ?b then _ else _] => destruct b end; cbn;
    rewrite <- ?app_assoc; cbn;
    (eexists; split; [reflexivity|]);
    intros pkt Hin;
    repeat (apply elem_of_cons in Hin as [-> | Hin]);
    try (by apply elem_of_nil in Hin);
    exists l, sr; cbn; eauto 6.
Qed.

(** C6: the view sent to clients has an empty [wordsToChoose], it does not
    depend on the [secretWord], [timer] and [wordsToChoose] fields of the room
    (the record of the view has no [secretWord] field), and the packets of a
    room update that carry word options or the secret word are addressed to
    the current drawer of the room. *)
Theorem C6_public_view_hides_secret_and_options (room : ServerRoom.t) :
  Room.wordsToChoose (getPublicRoom room) = [] ∧
  (∀ secret handle words,
     getPublicRoom
       (ServerRoom.set_secretWord secret
          (ServerRoom.set_timer handle (ServerRoom.set_wordsToChoose words room)))
     = getPublicRoom room) ∧
  (∀ roomId m l, getRoom roomId m = Some (l, room) →
     ∀ pkt, pkt ∈ sent (onRoomUpdate roomId (getPublicRoom room) m) →
       pkt ∈ sent m ∨
       pkt = {| target := roomId; message := RoomUpdated (getPublicRoom room) |} ∨
       ServerRoom.currentDrawerId room = Some (target pkt)).
Proof.
  split; [done|]. split; [done|].
  intros roomId m l Hroom pkt Hin.
  destruct (onRoomUpdate_sent roomId (getPublicRoom room) m) as (private & Hsent & Hpriv).
  rewrite Hsent in Hin. apply elem_of_app in Hin as [Hin | Hin]; [by left|].
  apply elem_of_cons in Hin as [-> | Hin]; [by right; left|].
  right; right. destruct (Hpriv pkt Hin) as (l' & room' & Hroom' & Hd & _).
  rewrite Hroom in Hroom'. by injection Hroom' as <- <-.
Qed.

Lemma C6_public_view_hides_secret_and_options_witness :
  ∃ room,
    getRoom "ABCDEF" (run selectingTrace init) = Some (0%nat, room) ∧
    ServerRoom.wordsToChoose room = ["CAT"; "DOG"; "ELEPHANT"] ∧
    Room.wordsToChoose (getPublicRoom room) = [] ∧
    ServerRoom.currentDrawerId room = Some "a".
Proof.
  eexists. split; [vm_compute; reflexivity|]. split; [reflexivity|].
  split; [apply C6_public_view_hides_secret_and_options|].
  set (pkt := {| target := "a"; message := ChooseWords ["CAT"; "DOG"; "ELEPHANT"] |}).
  match goal with |- ServerRoom.currentDrawerId ?room = _ =>
    destruct (proj2 (proj2 (C6_public_view_hides_secret_and_options room))
                "ABCDEF" (run selectingTrace init) 0%nat
                ltac:(vm_compute; reflexivity) pkt) as [Hold | [Hview | Hdrawer]]
  end.
  - apply list_elem_of_In. vm_compute. repeat (first [left; reflexivity | right]).
  - reflexivity.
  - discriminate Hview.
  - exact Hdrawer.
Defined.

(** ** Settings update (C10) *)

(** C10: for an existing room, [updateSettings] writes every key the payload
    names onto the room and leaves every other key of the room, every other
    room, the map of rooms and the timers as they are; there is no check of
    the phase, of the values or of the keys, and the handler does not look at
    the socket the message comes from. *)
Theorem C10_updateSettings_merges_payload roomId settings m l room :
  getRoom roomId m = Some (l, room) →
  ∃ room',
    updateSettings roomId settings m = (write l room' m, Some (getPublicRoom room')) ∧
    getRoom roomId (updateSettings roomId settings m).1 = Some (l, room') ∧
    merged room settings room' ∧
    ∀ socket,
      on_update_settings socket roomId settings m =
      emit (ServerRoom.id room') (RoomUpdated (getPublicRoom room')) (write l room' m).
Proof.
  intros Hroom. exists (Object_assign room settings).
  unfold on_update_settings, updateSettings. rewrite Hroom. cbn [fst].
  split; [done|]. split; [by eapply getRoom_write_same|]. split; [|done].
  repeat split.
Qed.

Lemma C10_updateSettings_merges_payload_witness :
  ∃ room',
    getRoom "ABCDEF"
      (updateSettings "ABCDEF" hostilePayload (run catTrace init)).1 = Some (0%nat, room') ∧
    ServerRoom.status room' = Ended ∧
    ServerRoom.secretWord room' = Some "DOG" ∧
    ServerRoom.players room' = [] ∧
    ServerRoom.roundPhase room' = Some Drawing.
Proof.
  edestruct (C10_updateSettings_merges_payload "ABCDEF" hostilePayload (run catTrace init))
    as (room' & _ & Hget & Hmerged & _); [vm_compute; reflexivity|].
  exists room'. split; [exact Hget|].
  destruct Hmerged as (_ & Hplayers & Hstatus & _ & _ & _ & _ & _ & _ & _ & _ & _ &
                       Hphase & _ & _ & _ & _ & Hsecret & _).
  repeat split; [exact Hstatus | exact Hsecret | exact Hplayers | exact Hphase].
Defined.

(** ** Ending a turn *)

Lemma endRound_spec roomId m l room :
  getRoom roomId m = Some (l, room) →
  let room' :=
    ServerRoom.set_roundPhase (Some Review)
      (ServerRoom.set_currentWord (ServerRoom.secretWord room) room) in
  heap (endRound roomId m) = <[l := room']> (heap m) ∧
  rooms (endRound roomId m) = rooms m ∧
  timers (endRound roomId m) =
    <[nextTimer m := ReviewDelay roomId l]> (timers (clearTimer room m)) ∧
  nextTimer (endRound roomId m) = S (nextTimer m).
Proof.
  intros Hroom room'. unfold endRound. rewrite Hroom. by mgr_simpl.
Qed.

Lemma getRoom_endRound roomId m l room :
  getRoom roomId m = Some (l, room) →
  getRoom roomId (endRound roomId m) =
    Some (l, ServerRoom.set_roundPhase (Some Review)
               (ServerRoom.set_currentWord (ServerRoom.secretWord room) room)).
Proof.
  intros Hroom. destruct (endRound_spec roomId m l room Hroom) as (Hheap & Hrooms & _).
  apply getRoom_Some. rewrite Hrooms, Hheap. apply getRoom_Some in Hroom as [Hget _].
  split; [done | apply lookup_insert_eq].
Qed.

(** ** Scores *)

Lemma addScore_cons id points p players :
  addScore id points (p :: players) =
  if decide (Player.id p = id)
  then Player.set_score (Player.score p + points) p :: players
  else p :: addScore id points players.
Proof.
  unfold addScore. cbn. destruct (decide (Player.id p = id)); [done|].
  destruct (list_find _ players) as [[i q]|]; done.
Qed.

Lemma scoreOf_cons id p players :
  scoreOf id (p :: players) =
  if decide (Player.id p = id) then Some (Player.score p) else scoreOf id players.
Proof.
  unfold scoreOf. cbn. destruct (decide (Player.id p = id)); [done|].
  destruct (list_find _ players) as [[i q]|]; done.
Qed.

Lemma scoreOf_addScore id points players :
  scoreOf id (addScore id points players) = (λ s, s + points) <$> scoreOf id players.
Proof.
  induction players as [|p players IH]; [done|].
  rewrite addScore_cons, scoreOf_cons.
  destruct (decide (Player.id p = id)) as [Heq|Hne].
  - rewrite scoreOf_cons. cbn. by rewrite decide_True.
  - rewrite scoreOf_cons. by rewrite decide_False.
Qed.

Lemma scoreOf_addScore_ne id id' points players :
  id' ≠ id → scoreOf id' (addScore id points players) = scoreOf id' players.
Proof.
  intros Hne. induction players as [|p players IH]; [done|].
  rewrite addScore_cons, scoreOf_cons.
  destruct (decide (Player.id p = id)) as [Heq|Hne'].
  - rewrite scoreOf_cons. cbn. rewrite Heq. by rewrite !decide_False.
  - rewrite scoreOf_cons. by destruct (decide (Player.id p = id')).
Qed.

Lemma addScore_ids id points players :
  Player.id <$> addScore id points players = Player.id <$> players.
Proof.
  induction players as [|p players IH]; [done|].
  rewrite addScore_cons. destruct (decide (Player.id p = id)); cbn; [done | by rewrite IH].
Qed.

Lemma addScore_hosts id points players :
  Player.isHost <$> addScore id points players = Player.isHost <$> players.
Proof.
  induction players as [|p players IH]; [done|].
  rewrite addScore_cons. destruct (decide (Player.id p = id)); cbn; [done | by rewrite IH].
Qed.

Lemma scoreOf_is_Some id players :
  id ∈ Player.id <$> players → is_Some (scoreOf id players).
Proof.
  induction players as [|p players IH]; [by intros ?%elem_of_nil|]. rewrite fmap_cons.
  rewrite scoreOf_cons. intros [Heq | Hin]%elem_of_cons.
  - rewrite decide_True; eauto.
  - destruct (decide (Player.id p = id)); eauto.
Qed.

(** ** Guesses (C2, C3, C4) *)

Lemma truthy_true s : s ≠ "" → truthy s = true.
Proof. intros Hs. unfold truthy. by rewrite bool_decide_eq_false_2. Qed.

Lemma eqIgnoreCase_decide s t :
  bool_decide (toUpperCase s = toUpperCase t) = eqIgnoreCase s t.
Proof.
  destruct (eqIgnoreCase s t) eqn:E.
  - apply bool_decide_eq_true, eqIgnoreCase_spec, E.
  - apply bool_decide_eq_false. intros Heq%eqIgnoreCase_spec. congruence.
Qed.

(** [processGuess] once its guard and the drawer test are passed. *)
Lemma processGuess_open roomId socketId guess m l room secret :
  getRoom roomId m = Some (l, room) →
  guessingOpen room secret →
  ServerRoom.currentDrawerId room ≠ Some socketId →
  processGuess roomId socketId guess m =
    if eqIgnoreCase (trim guess) secret then
      if bool_decide (socketId ∈ ServerRoom.guessedCorrectly room)
      then (m, GuessResult.mk true None)
      else
        let room1 :=
          ServerRoom.set_guessedCorrectly (ServerRoom.guessedCorrectly room ++ [socketId])
            (ServerRoom.set_players (rewarded socketId room) room) in
        let guessers :=
          filter (λ p, Some (Player.id p) ≠ ServerRoom.currentDrawerId room)
            (rewarded socketId room) in
        ((if (length guessers <=? length (ServerRoom.guessedCorrectly room ++ [socketId]))%nat
          then endRound roomId (write l room1 m) else write l room1 m),
         GuessResult.mk true (Some 50))
    else (m, GuessResult.mk false None).
Proof.
  intros Hroom (Hstatus & Hphase & Hsecret & Hne) Hdrawer.
  unfold processGuess. rewrite Hroom, Hsecret, Hstatus, Hphase.
  rewrite (truthy_true _ Hne), !bool_decide_eq_true_2 by done. cbn [negb orb].
  rewrite bool_decide_eq_false_2 by congruence.
  rewrite eqIgnoreCase_decide. done.
Qed.

Lemma rewarded_ids socketId room :
  Player.id <$> rewarded socketId room = Player.id <$> ServerRoom.players room.
Proof.
  unfold rewarded. destruct (ServerRoom.currentDrawerId room); by rewrite ?addScore_ids.
Qed.

Lemma rewarded_hosts socketId room :
  Player.isHost <$> rewarded socketId room = Player.isHost <$> ServerRoom.players room.
Proof.
  unfold rewarded. destruct (ServerRoom.currentDrawerId room); by rewrite ?addScore_hosts.
Qed.

Lemma rewarded_scores socketId room :
  ServerRoom.currentDrawerId room ≠ Some socketId →
  scoreOf socketId (rewarded socketId room)
    = (λ s, s + 50) <$> scoreOf socketId (ServerRoom.players room) ∧
  (∀ drawerId, ServerRoom.currentDrawerId room = Some drawerId →
     scoreOf drawerId (rewarded socketId room)
       = (λ s, s + 10) <$> scoreOf drawerId (ServerRoom.players room)) ∧
  (∀ id, id ≠ socketId → ServerRoom.currentDrawerId room ≠ Some id →
     scoreOf id (rewarded socketId room) = scoreOf id (ServerRoom.players room)).
Proof.
  intros Hdrawer. unfold rewarded.
  destruct (ServerRoom.currentDrawerId room) as [d|].
  - assert (socketId ≠ d) by congruence. repeat split.
    + rewrite scoreOf_addScore_ne by done. apply scoreOf_addScore.
    + intros ? [= <-]. rewrite scoreOf_addScore. f_equal.
      by apply scoreOf_addScore_ne.
    + intros id Hid Hd. rewrite !scoreOf_addScore_ne by congruence. done.
  - repeat split.
    + apply scoreOf_addScore.
    + done.
    + intros id Hid _. by apply scoreOf_addScore_ne.
Qed.

(** After the guess the room object is at the same place; the guess may have
    ended the turn, which changes neither the players nor [guessedCorrectly]. *)
Lemma processGuess_first_correct roomId socketId guess m l room secret :
  getRoom roomId m = Some (l, room) →
  guessingOpen room secret →
  ServerRoom.currentDrawerId room ≠ Some socketId →
  eqIgnoreCase (trim guess) secret = true →
  socketId ∉ ServerRoom.guessedCorrectly room →
  ∃ room',
    getRoom roomId (processGuess roomId socketId guess m).1 = Some (l, room') ∧
    (processGuess roomId socketId guess m).2 = GuessResult.mk true (Some 50) ∧
    ServerRoom.players room' = rewarded socketId room ∧
    ServerRoom.guessedCorrectly room' = ServerRoom.guessedCorrectly room ++ [socketId] ∧
    ServerRoom.currentDrawerId room' = ServerRoom.currentDrawerId room ∧
    ServerRoom.secretWord room' = ServerRoom.secretWord room.
Proof.
  intros Hroom Hopen Hdrawer Hmatch Hfresh.
  rewrite (processGuess_open _ _ _ _ _ _ _ Hroom Hopen Hdrawer), Hmatch.
  rewrite bool_decide_eq_false_2 by done. cbn zeta. cbn [fst snd].
  match goal with |- context [write l ?r m] => set (room1 := r) end.
  pose proof (getRoom_write_same roomId m l room room1 Hroom) as Hroom1.
  destruct (_ <=? _)%nat.
  - eexists. split; [by apply getRoom_endRound|]. done.
  - by exists room1.
Qed.

(** A player who is already in [guessedCorrectly] cannot change the room by
    guessing, whatever the guess and whatever the phase. *)
Lemma processGuess_again roomId socketId guess m l room :
  getRoom roomId m = Some (l, room) →
  socketId ∈ ServerRoom.guessedCorrectly room →
  (processGuess roomId socketId guess m).1 = m.
Proof.
  intros Hroom Hin. unfold processGuess. rewrite Hroom.
  destruct (ServerRoom.secretWord room) as [secret|]; [|done].
  destruct (_ || _); [done|].
  destruct (bool_decide (Some socketId = _)); [done|].
  destruct (bool_decide (toUpperCase _ = _)); [|done].
  by rewrite bool_decide_eq_true_2.
Qed.


(** C3: a guess sent by the current drawer, and any guess sent while the phase
    is not drawing, is reported not correct and leaves the whole server state
    as it is; the chat handler then only relays the text as a chat line. *)
Theorem C3_drawer_and_off_phase_guesses_ignored roomId socketId guess m l room :
  getRoom roomId m = Some (l, room) →
  ServerRoom.currentDrawerId room = Some socketId ∨
  ServerRoom.roundPhase room ≠ Some Drawing →
  processGuess roomId socketId guess m = (m, GuessResult.mk false None) ∧
  ∀ user, on_chat socketId roomId guess user m = emit roomId (Chat user guess false) m.
Proof.
  intros Hroom Hcase.
  assert (processGuess roomId socketId guess m = (m, GuessResult.mk false None)) as Hpg.
  { unfold processGuess. rewrite Hroom.
    destruct (ServerRoom.secretWord room) as [secret|]; [|done].
    destruct (negb (truthy secret)); [done|].
    destruct (bool_decide (ServerRoom.status room = Playing)); [|done].
    destruct Hcase as [Hdrawer | Hphase].
    - destruct (bool_decide (ServerRoom.roundPhase room = Some Drawing)); [|done].
      cbn. by rewrite bool_decide_eq_true_2.
    - by rewrite (bool_decide_eq_false_2 _ Hphase). }
  split; [done|]. intros user. unfold on_chat. by rewrite Hpg.
Qed.

Lemma guessers_length_le (players : list Player.t) (drawer : option string)
    (guessed : list string) :
  NoDup (Player.id <$> players) →
  (∀ p, p ∈ players → Some (Player.id p) ≠ drawer → Player.id p ∈ guessed) →
  (length (filter (λ p, Some (Player.id p) ≠ drawer) players) ≤ length guessed)%nat.
Proof.
  intros Hnodup Hcover.
  rewrite <- (length_fmap Player.id).
  apply submseteq_length, NoDup_submseteq.
  - apply (NoDup_fmap_2_strong Player.id).
    + intros p q [_ Hp]%list_elem_of_filter [_ Hq]%list_elem_of_filter Heq.
      clear Hcover. induction players as [|r players IH]; [by apply elem_of_nil in Hp|].
      rewrite fmap_cons in Hnodup. apply NoDup_cons in Hnodup as [Hr Hnodup].
      apply elem_of_cons in Hp as [-> | Hp]; apply elem_of_cons in Hq as [-> | Hq].
      * done.
      * destruct Hr. rewrite Heq. by apply list_elem_of_fmap_2.
      * destruct Hr. rewrite <- Heq. by apply list_elem_of_fmap_2.
      * by apply IH.
    + apply NoDup_filter. by eapply NoDup_fmap_1.
  - intros id (p & -> & [Hp Hin]%list_elem_of_filter)%list_elem_of_fmap. by apply Hcover.
Qed.



Lemma C3_drawer_and_off_phase_guesses_ignored_witness :
  processGuess "ABCDEF" "a" "CAT" (run catTrace init)
    = (run catTrace init, GuessResult.mk false None) ∧
  processGuess "ABCDEF" "b" "CAT" (run selectingTrace init)
    = (run selectingTrace init, GuessResult.mk false None).
Proof.
  split.
  - eapply C3_drawer_and_off_phase_guesses_ignored.
    + vm_compute. reflexivity.
    + left. reflexivity.
  - eapply C3_drawer_and_off_phase_guesses_ignored.
    + vm_compute. reflexivity.
    + right. discriminate.
Defined.


(** ** Turn advance (C5) *)

Lemma getRoom_write_other roomId m l room' :
  JsMap.get roomId (rooms m) = Some l →
  getRoom roomId (write l room' m) = Some (l, room').
Proof. intros Hget. apply getRoom_Some. split; [done | apply lookup_insert_eq]. Qed.

Lemma nth_elem_of {A} (l : list A) (i : nat) (d : A) : d ∈ l → nth i l d ∈ l.
Proof.
  intros Hd. destruct (nth_in_or_default i l d) as [Hin | ->]; [|done].
  by apply list_elem_of_In.
Qed.

Lemma randomIndex_lt roll n : (0 < n)%nat → (randomIndex roll n < n)%nat.
Proof. destruct n; [lia|]. intros _. cbn [randomIndex]. apply Nat.mod_upper_bound. lia. Qed.

(** What a call of [startNewRound] that returns leaves behind: the room object
    stays where it is, with the same players, and its [drawnPlayers] is within
    the players. *)
Lemma startNewRound_rec_room fuel roomId rolls m m' res l room :
  startNewRound_rec fuel roomId rolls m = Some (m', res) →
  getRoom roomId m = Some (l, room) →
  ∃ room',
    getRoom roomId m' = Some (l, room') ∧
    ServerRoom.players room' = ServerRoom.players room ∧
    drawnWithinPlayers room'.
Proof.
  revert m m' res room. induction fuel as [|fuel IH]; intros m m' res room Hrun Hroom;
    [done|].
  cbn [startNewRound_rec] in Hrun. rewrite Hroom in Hrun. cbv zeta in Hrun.
  pose proof Hroom as [Hget _]%getRoom_Some.
  set (filtered := filter _ (ServerRoom.drawnPlayers room)) in Hrun.
  assert (filtered ⊆ Player.id <$> ServerRoom.players room) as Hsub.
  { intros id [Hin _]%list_elem_of_filter. exact Hin. }
  destruct (length _ <=? length _)%nat eqn:Hcomplete in Hrun.
  - cbn [andb] in Hrun.
    destruct (_ <? _) in Hrun.
    + injection Hrun as <- _. eexists. split.
      * rewrite getRoom_onRoomUpdate. apply getRoom_write_other. by mgr_simpl.
      * split; [done|]. split; cbn; [apply list_subseteq_nil | lia].
    + cbn in Hrun.
      destruct (filter _ (ServerRoom.players room)) as [|first rest] eqn:Havail in Hrun.
      * destruct (startNewRound_rec fuel _ _ _) as [[m'' res']|] eqn:Hrec in Hrun; [|done].
        injection Hrun as <- _.
        eapply IH in Hrec as (room' & ? & ? & ?);
          [|apply getRoom_write_other; by mgr_simpl]. by exists room'.
      * injection Hrun as <- _. eexists. split;
          [apply getRoom_write_other; by mgr_simpl|].
        split; [done|]. cbn.
        assert (nth (randomIndex (rollDrawer rolls) (length (first :: rest)))
                  (first :: rest) first ∈ ServerRoom.players room) as Hdrawer.
        { assert (∀ p, p ∈ first :: rest → p ∈ ServerRoom.players room) as Hav
            by (intros p Hp; rewrite <- Havail in Hp;
                by apply list_elem_of_filter in Hp as [_ ?]).
          apply Hav, nth_elem_of, elem_of_cons. by left. }
        split; cbn.
        -- intros id ->%list_elem_of_singleton. by apply list_elem_of_fmap_2.
        -- destruct (ServerRoom.players room); [by apply elem_of_nil in Hdrawer|cbn; lia].
  - cbn [andb] in Hrun. cbn in Hrun. apply Nat.leb_gt in Hcomplete. cbn in Hcomplete.
    fold filtered in Hrun.
    destruct (filter _ (ServerRoom.players room)) as [|first rest] eqn:Havail in Hrun.
    + destruct (startNewRound_rec fuel _ _ _) as [[m'' res']|] eqn:Hrec in Hrun; [|done].
      injection Hrun as <- _.
      eapply IH in Hrec as (room' & ? & ? & ?);
        [|apply getRoom_write_other; by mgr_simpl]. by exists room'.
    + injection Hrun as <- _. eexists. split;
        [apply getRoom_write_other; by mgr_simpl|].
      split; [done|]. cbn.
      assert (nth (randomIndex (rollDrawer rolls) (length (first :: rest)))
                (first :: rest) first ∈ ServerRoom.players room) as Hdrawer.
      { assert (∀ p, p ∈ first :: rest → p ∈ ServerRoom.players room) as Hav
          by (intros p Hp; rewrite <- Havail in Hp;
              by apply list_elem_of_filter in Hp as [_ ?]).
        apply Hav, nth_elem_of, elem_of_cons. by left. }
      split; cbn.
      * intros id [Hin | ->%list_elem_of_singleton]%elem_of_app; [by apply Hsub|].
        by apply list_elem_of_fmap_2.
      * rewrite length_app. cbn. lia.
Qed.

(** [startNewRound] returns: the bound [roundFuel] on the depth of its nested
    calls is never reached. *)
Lemma startNewRound_rec_total fuel roomId rolls m :
  (match getRoom roomId m with
   | Some (_, room) => roundFuel room
   | None => 1
   end ≤ fuel)%nat →
  is_Some (startNewRound_rec fuel roomId rolls m).
Proof.
  revert m. induction fuel as [|fuel IH]; intros m Hfuel.
  { destruct (getRoom roomId m) as [[l room]|]; [unfold roundFuel in Hfuel|]; lia. }
  cbn [startNewRound_rec].
  destruct (getRoom roomId m) as [[l room]|] eqn:Hroom; [|done]. cbv zeta.
  pose proof Hroom as [Hget _]%getRoom_Some.
  set (filtered := filter _ (ServerRoom.drawnPlayers room)).
  destruct (length _ <=? length _)%nat eqn:Hcomplete.
  - cbn [andb]. destruct (_ <? _) eqn:Hover; [done|]. cbn.
    destruct (filter _ (ServerRoom.players room)) as [|first rest] eqn:Havail; [|done].
    match goal with |- context [startNewRound_rec fuel roomId rolls ?m0] =>
      destruct (IH m0) as [[m' res] ->]; [|done] end.
    rewrite getRoom_write_other by (by mgr_simpl).
    apply Z.ltb_ge in Hover. cbn in Hover.
    unfold roundFuel in *. cbn.
    destruct (ServerRoom.drawnPlayers room); lia.
  - cbn [andb]. cbn. fold filtered.
    destruct (filter _ (ServerRoom.players room)) as [|first rest] eqn:Havail; [|done].
    match goal with |- context [startNewRound_rec fuel roomId rolls ?m0] =>
      destruct (IH m0) as [[m' res] ->]; [|done] end.
    rewrite getRoom_write_other by (by mgr_simpl).
    apply Nat.leb_gt in Hcomplete. cbn in Hcomplete. fold filtered in Hcomplete.
    assert (ServerRoom.drawnPlayers room ≠ []) as Hdrawn.
    { intros Hnil. subst filtered. rewrite Hnil in *. cbn in *.
      destruct (ServerRoom.players room) as [|p ps]; [cbn in Hcomplete; lia|].
      cbn in Havail. rewrite decide_True in Havail by apply not_elem_of_nil. done. }
    unfold roundFuel in *. cbn.
    destruct (ServerRoom.drawnPlayers room); [done | lia].
Qed.

(** More fuel than needed does not change the result. *)
Lemma startNewRound_rec_mono fuel fuel' roomId rolls m out :
  startNewRound_rec fuel roomId rolls m = Some out →
  (fuel ≤ fuel')%nat →
  startNewRound_rec fuel' roomId rolls m = Some out.
Proof.
  revert fuel' m out. induction fuel as [|fuel IH]; intros fuel' m out Hrun Hle; [done|].
  destruct fuel' as [|fuel']; [lia|].
  cbn [startNewRound_rec] in *.
  destruct (getRoom roomId m) as [[l room]|]; [|done]. cbv zeta in *.
  destruct (_ && _); [done|].
  destruct (filter _ _) as [|first rest]; [|done].
  destruct (startNewRound_rec fuel _ _ _) as [[m' res]|] eqn:Hrec; [|done].
  by rewrite (IH fuel' _ _ Hrec) by lia.
Qed.

Lemma startNewRound_eq roomId rolls m :
  ∃ fuel, ∀ fuel', (fuel ≤ fuel')%nat →
    startNewRound_rec fuel' roomId rolls m = Some (startNewRound roomId rolls m).
Proof.
  unfold startNewRound.
  set (fuel := match getRoom roomId m with Some (_, room) => roundFuel room | None => 1%nat end).
  destruct (startNewRound_rec_total fuel roomId rolls m) as [out Hout]; [done|].
  exists fuel. intros fuel' Hle. rewrite Hout. cbn. by eapply startNewRound_rec_mono.
Qed.

Lemma startNewRound_room roomId rolls m l room :
  getRoom roomId m = Some (l, room) →
  ∃ room',
    getRoom roomId (startNewRound roomId rolls m).1 = Some (l, room') ∧
    ServerRoom.players room' = ServerRoom.players room ∧
    drawnWithinPlayers room'.
Proof.
  intros Hroom. destruct (startNewRound_eq roomId rolls m) as [fuel Hfuel].
  specialize (Hfuel fuel (Nat.le_refl _)).
  destruct (startNewRound roomId rolls m) as [m' res].
  by eapply startNewRound_rec_room.
Qed.

Lemma filter_not_in_nil (players : list Player.t) :
  filter (λ p, Player.id p ∉ ([] : list string)) players = players.
Proof.
  induction players as [|p ps IH]; [done|].
  rewrite filter_cons, decide_True by apply not_elem_of_nil. by rewrite IH.
Qed.




(** ** Starting the game (C8) *)

(** A turn advance in a room where nobody has drawn yet. *)
Lemma startNewRound_fresh roomId rolls m l room :
  getRoom roomId m = Some (l, room) →
  ServerRoom.drawnPlayers room = [] →
  ServerRoom.players room ≠ [] →
  ∃ room',
    getRoom roomId (startNewRound roomId rolls m).1 = Some (l, room') ∧
    ServerRoom.guessedCorrectly room' = [] ∧
    ServerRoom.roundPhase room' = Some Selecting ∧
    ServerRoom.currentRound room' = ServerRoom.currentRound room ∧
    ServerRoom.status room' = ServerRoom.status room.
Proof.
  intros Hroom Hdrawn Hplayers.
  destruct (startNewRound_eq roomId rolls m) as [fuel Hfuel].
  specialize (Hfuel (S fuel) (Nat.le_succ_diag_r _)).
  destruct (startNewRound roomId rolls m) as [m' res]. cbn [fst].
  cbn [startNewRound_rec] in Hfuel. rewrite Hroom in Hfuel. cbv zeta in Hfuel.
  pose proof Hroom as [Hget _]%getRoom_Some.
  room_simpl. rewrite Hdrawn in Hfuel. rewrite filter_nil in Hfuel.
  destruct (length (ServerRoom.players room) <=? length [])%nat eqn:Hle in Hfuel.
  { apply Nat.leb_le in Hle. destruct (ServerRoom.players room); [done | cbn in Hle; lia]. }
  cbn [andb] in Hfuel. room_simpl. rewrite filter_not_in_nil in Hfuel.
  destruct (ServerRoom.players room) as [|first rest] eqn:Hps; [done|].
  injection Hfuel as <- _. eexists. split; [apply getRoom_write_other; by mgr_simpl|].
  done.
Qed.

Lemma fire_starting h roomId l countdown rolls now m :
  timers m !! h = Some (StartingTick roomId l countdown) →
  fire h rolls now m =
    let m2 :=
      onTick roomId (countdown - 1)
        (setTimers (<[h := StartingTick roomId l (countdown - 1)]> (timers m)) m) in
    if countdown - 1 <=? 0 then
      (startNewRound roomId rolls
         (match heap m2 !! l with Some room => clearTimer room m2 | None => m2 end)).1
    else m2.
Proof. intros Hh. unfold fire. by rewrite Hh. Qed.

(** C8, amended: starting the game sets the status to playing, the round
    counter to 1, [drawnPlayers] to empty and the phase to starting, and starts
    an interval of one second with a countdown of 3; [guessedCorrectly] is left
    as it was.  The first two ticks only count down; the third cancels the
    interval and runs the turn advance, which is what empties
    [guessedCorrectly] when the room has players. *)
Theorem C8_startGame_resets_and_counts_down roomId m l room :
  getRoom roomId m = Some (l, room) →
  let m1 := (startGame roomId m).1 in
  let h := nextTimer m in
  ∃ room1,
    getRoom roomId m1 = Some (l, room1) ∧
    ServerRoom.status room1 = Playing ∧
    ServerRoom.currentRound room1 = 1 ∧
    ServerRoom.drawnPlayers room1 = [] ∧
    ServerRoom.roundPhase room1 = Some Starting ∧
    ServerRoom.guessedCorrectly room1 = ServerRoom.guessedCorrectly room ∧
    ServerRoom.timer room1 = Some h ∧
    timers m1 = <[h := StartingTick roomId l 3]> (timers (clearTimer room m)) ∧
    delayMs (StartingTick roomId l 3) = 1000 ∧
    ∀ r1 n1 r2 n2 r3 n3,
      let m2 := fire h r1 n1 m1 in
      let m3 := fire h r2 n2 m2 in
      let m4 := fire h r3 n3 m3 in
      m2 = onTick roomId 2 (setTimers (<[h := StartingTick roomId l 2]> (timers m1)) m1) ∧
      m3 = onTick roomId 1 (setTimers (<[h := StartingTick roomId l 1]> (timers m2)) m2) ∧
      m4 = (startNewRound roomId r3
              (clearInterval h
                 (onTick roomId 0
                    (setTimers (<[h := StartingTick roomId l 0]> (timers m3)) m3)))).1 ∧
      (ServerRoom.players room ≠ [] →
       ∃ room4,
         getRoom roomId m4 = Some (l, room4) ∧
         ServerRoom.guessedCorrectly room4 = [] ∧
         ServerRoom.roundPhase room4 = Some Selecting ∧
         ServerRoom.currentRound room4 = 1).
Proof.
  intros Hroom. cbv zeta. pose proof Hroom as [Hget Hheap]%getRoom_Some.
  unfold startGame. rewrite Hroom. mgr_simpl. set (h := nextTimer m).
  eexists. split; [apply getRoom_write_other; by mgr_simpl|].
  do 6 (split; [done|]). split; [by mgr_simpl|]. split; [done|].
  intros r1 n1 r2 n2 r3 n3.
  match goal with |- context [fire h r1 n1 ?m0] => set (m1 := m0) end.
  assert (timers m1 !! h = Some (StartingTick roomId l 3)) as Ht1
    by (subst m1; mgr_simpl; apply lookup_insert_eq).
  rewrite (fire_starting h roomId l 3 r1 n1 m1 Ht1). cbn zeta.
  change (3 - 1 <=? 0) with false. cbn iota. change (3 - 1) with 2.
  set (m2 := onTick roomId 2 _).
  assert (timers m2 !! h = Some (StartingTick roomId l 2)) as Ht2
    by (subst m2; mgr_simpl; apply lookup_insert_eq).
  rewrite (fire_starting h roomId l 2 r2 n2 m2 Ht2). cbn zeta.
  change (2 - 1 <=? 0) with false. cbn iota. change (2 - 1) with 1.
  set (m3 := onTick roomId 1 _).
  assert (timers m3 !! h = Some (StartingTick roomId l 1)) as Ht3
    by (subst m3; mgr_simpl; apply lookup_insert_eq).
  rewrite (fire_starting h roomId l 1 r3 n3 m3 Ht3). cbn zeta.
  change (1 - 1 <=? 0) with true. cbn iota. change (1 - 1) with 0.
  assert (heap (onTick roomId 0
                  (setTimers (<[h := StartingTick roomId l 0]> (timers m3)) m3)) !! l
          = Some (ServerRoom.set_timer (Some h)
                    (ServerRoom.set_roundPhase (Some Starting)
                       (ServerRoom.set_drawnPlayers []
                          (ServerRoom.set_currentRound 1
                             (ServerRoom.set_status Playing room)))))) as Hobj
    by (subst m3 m2 m1; mgr_simpl; apply lookup_insert_eq).
  rewrite Hobj. unfold clearTimer at 1. cbn [ServerRoom.timer ServerRoom.set_timer].
  do 3 (split; [done|]).
  intros Hplayers.
  match goal with |- context [startNewRound roomId r3 ?m0] => set (m3' := m0) end.
  assert (getRoom roomId m3' =
          Some (l, ServerRoom.set_timer (Some h)
                     (ServerRoom.set_roundPhase (Some Starting)
                        (ServerRoom.set_drawnPlayers []
                           (ServerRoom.set_currentRound 1
                              (ServerRoom.set_status Playing room)))))) as Hroom3.
  { apply getRoom_Some. subst m3'. split; [|exact Hobj]. subst m3 m2 m1. by mgr_simpl. }
  destruct (startNewRound_fresh roomId r3 m3' l _ Hroom3 eq_refl Hplayers)
    as (room4 & Hget4 & Hgc & Hphase & Hround & _).
  by exists room4.
Qed.

(** C8, as stated, fails: [startGame] does not touch [guessedCorrectly]; a game
    started while the set is not empty enters the starting phase with the set
    as it was. *)
Lemma C8_counterexample :
  ∃ l room,
    getRoom "ABCDEF" (run restartTrace init) = Some (l, room) ∧
    ServerRoom.roundPhase room = Some Starting ∧
    ServerRoom.currentRound room = 1 ∧
    ServerRoom.drawnPlayers room = [] ∧
    ServerRoom.guessedCorrectly room = ["b"] ∧
    ServerRoom.guessedCorrectly room ≠ [].
Proof.
  eexists _, _. split; [vm_compute; reflexivity|]. cbn. repeat split; done.
Qed.

Lemma C8_startGame_resets_and_counts_down_witness :
  ∃ room1,
    getRoom "ABCDEF" (startGame "ABCDEF" (run lobbyTrace init)).1 = Some (0%nat, room1) ∧
    ServerRoom.roundPhase room1 = Some Starting ∧
    timers (startGame "ABCDEF" (run lobbyTrace init)).1
      = <[0%nat := StartingTick "ABCDEF" 0 3]> ∅.
Proof.
  edestruct (C8_startGame_resets_and_counts_down "ABCDEF" (run lobbyTrace init))
    as (room1 & Hget & _ & _ & _ & Hphase & _ & _ & Htimers & _);
    [vm_compute; reflexivity|].
  exists room1. split; [exact Hget|]. split; [exact Hphase | exact Htimers].
Defined.
